(** * LeveragePay: the Express/Mongoose server of [server.js]

    A shallow embedding of the two Mongoose models ([UserSchema],
    [PaymentSchema]) and of the four route handlers of the user and payment
    controllers, followed by the properties of the written specification
    that can be stated over them.

    Modelling conventions.
    - A request body is the JSON object produced by [bodyParser.json()],
      restricted to the paths the schema declares; an absent key is [None],
      which is JavaScript's [undefined].
    - JSON numbers are restricted to integers ([Z]); dates are epoch
      milliseconds.
    - Each collection is the list of its documents, kept in the order they
      were inserted (the server never updates or deletes).  That order is
      the one [listPaymentsForUser] reads back; the source asks the
      database for no order ([Payment.find] has no sort), so
      [listPaymentsForUser_natural] is the same handler over whatever order
      the database returns, and what is said about the order of a listing
      is said on it.
    - Mongoose's strict mode drops every key the schema does not declare,
      except [_id] and [__v], which it takes from the constructor's argument
      as well: a body that sets one of these two is outside [RegisterBody]
      and [PaymentBody], and every statement about "a body" is about a body
      without them.
    - A [request] is a request as its handler receives it, after the cors
      and body-parser middleware; what the middleware answers itself is not
      modelled.
    - [_id] is always generated by [new Model(...)] from the process-wide
      ObjectId counter, so the [_id] index never rejects an insert.
    - Validators follow Mongoose 5, the version whose connection options
      ([useNewUrlParser], [useUnifiedTopology]) the server passes: validators
      other than [required] are skipped on [undefined] only, so the [enum]
      validator rejects an explicit [null]. *)

From Stdlib Require Import ZArith NArith List String Ascii Bool Lia Sorted Permutation HexString.
Import ListNotations.
Open Scope string_scope.
Open Scope list_scope.

Set Warnings "-register-all".

(** ** JSON values and Mongoose casting *)

Inductive json : Type :=
| JNull
| JBool (b : bool)
| JNum (n : Z)
| JStr (s : string)
| JArr (l : list json)
| JObj (l : list (string * json)).

Definition ObjectId := N.
Definition Date := Z.
Bind Scope N_scope with ObjectId.
Bind Scope Z_scope with Date.

(** Result of casting a non-null JSON value to a schema type: a value, a
    value cast to [null] (the empty string for Number and Date), or a
    [CastError]. *)
Inductive cast (T : Type) : Type :=
| CastOk (v : T)
| CastNull
| CastError.
Arguments CastOk {T} v.
Arguments CastNull {T}.
Arguments CastError {T}.

(** The casters of the four schema types the models use.  They belong to
    Mongoose and to the JavaScript runtime ([Number(s)], [String(n)],
    [new Date(s)], [new ObjectId(s)]), so they are an interface here; the two
    laws say that a JSON string is already a String and a JSON number is
    already a Number. *)
Class Casters : Type := {
  castObjectId : json -> option ObjectId;
  castNumber : json -> cast Z;
  castString : json -> option string;
  castDate : json -> cast Date;
  castString_JStr : forall s, castString (JStr s) = Some s;
  castNumber_JNum : forall n, castNumber (JNum n) = CastOk n
}.

Definition of_option {T} (o : option T) : cast T :=
  match o with
  | Some v => CastOk v
  | None => CastError
  end.

(** ** Schema types and document paths *)

(** The state of one path of a document: never set, set to [null], set to a
    value, or set to something its type could not cast (reported by
    validation). *)
Inductive path (T : Type) : Type :=
| Undefined
| Null
| Value (v : T)
| CastFail.
Arguments Undefined {T}.
Arguments Null {T}.
Arguments Value {T} v.
Arguments CastFail {T}.

Definition path_eqb {T} (eqb : T -> T -> bool) (p q : path T) : bool :=
  match p, q with
  | Undefined, Undefined => true
  | Null, Null => true
  | Value a, Value b => eqb a b
  | CastFail, CastFail => true
  | _, _ => false
  end.

(** The options of a schema path, as written in [new mongoose.Schema({...})].
    A default is a constant or a function called at construction; the only
    function used is [Date.now], so a default is a function of the clock. *)
Record SchemaTypeOptions (T : Type) : Type := {
  required : bool;
  unique : bool;
  enum : option (list T);
  default : option (Date -> T)
}.
Arguments required {T} _.
Arguments unique {T} _.
Arguments enum {T} _.
Arguments default {T} _.

(** models/User.js *)
Module UserSchema.
Definition username : SchemaTypeOptions string :=
  {| required := true; unique := true; enum := None; default := None |}.
Definition email : SchemaTypeOptions string :=
  {| required := true; unique := true; enum := None; default := None |}.
Definition password : SchemaTypeOptions string :=
  {| required := true; unique := false; enum := None; default := None |}.
End UserSchema.

(** models/Payment.js *)
Module PaymentSchema.
Definition userId : SchemaTypeOptions ObjectId :=
  {| required := false; unique := false; enum := None; default := None |}.
Definition amount : SchemaTypeOptions Z :=
  {| required := true; unique := false; enum := None; default := None |}.
Definition currency : SchemaTypeOptions string :=
  {| required := true; unique := false; enum := None; default := None |}.
Definition status : SchemaTypeOptions string :=
  {| required := false; unique := false;
     enum := Some ["pending"; "completed"; "failed"];
     default := Some (fun _ => "pending") |}.
Definition createdAt : SchemaTypeOptions Date :=
  {| required := false; unique := false; enum := None;
     default := Some (fun now => now) |}.
End PaymentSchema.

(** Setting a path from the constructor's argument: [undefined] takes the
    default when there is one, [null] stays [null], anything else is cast. *)
Definition construct {T} (o : SchemaTypeOptions T) (caster : json -> cast T)
    (now : Date) (raw : option json) : path T :=
  match raw with
  | None =>
      match default o with
      | Some d => Value (d now)
      | None => Undefined
      end
  | Some JNull => Null
  | Some v =>
      match caster v with
      | CastOk x => Value x
      | CastNull => Null
      | CastError => CastFail
      end
  end.

(** The kinds of per-path error a [ValidationError] collects. *)
Inductive ValidatorKind : Type :=
| KCastError
| KRequired
| KEnum.

(** Validation of one path.  A cast failure is the path's error.  Otherwise
    the validators run in declaration order, [required] first: it fails on
    [undefined], [null] and, through [checkRequired], on the empty string;
    [enum] is skipped on [undefined] only. *)
Definition validatePath {T} (o : SchemaTypeOptions T)
    (checkRequired : T -> bool) (eqb : T -> T -> bool)
    (name : string) (p : path T) : list (string * ValidatorKind) :=
  match p with
  | CastFail => [(name, KCastError)]
  | Undefined => if required o then [(name, KRequired)] else []
  | Null =>
      if required o then [(name, KRequired)]
      else match enum o with
           | Some _ => [(name, KEnum)]
           | None => []
           end
  | Value v =>
      if required o && negb (checkRequired v) then [(name, KRequired)]
      else match enum o with
           | Some vs => if existsb (eqb v) vs then [] else [(name, KEnum)]
           | None => []
           end
  end.

Definition checkRequired_String (s : string) : bool := negb (s =? EmptyString).
Definition checkRequired_Number (n : Z) : bool := true.
Definition checkRequired_ObjectId (o : ObjectId) : bool := true.
Definition checkRequired_Date (d : Date) : bool := true.

(** ** Documents *)

Record User : Type := {
  User_id : ObjectId;
  username : path string;
  email : path string;
  password : path string
}.

Record Payment : Type := {
  Payment_id : ObjectId;
  userId : path ObjectId;
  amount : path Z;
  currency : path string;
  status : path string;
  createdAt : path Date
}.

(** The bodies the two POST routes hand to the model constructors, with
    the keys the schemas declare; a body that also sets [_id] or [__v] has
    no counterpart here. *)
Record RegisterBody : Type := {
  body_username : option json;
  body_email : option json;
  body_password : option json
}.

Record PaymentBody : Type := {
  body_userId : option json;
  body_amount : option json;
  body_currency : option json;
  body_status : option json;
  body_createdAt : option json
}.

(** The login route documents its body only in the specification; the
    handler never reads it. *)
Record LoginBody : Type := {
  body_usernameOrEmail : option json;
  body_loginPassword : option json
}.

(** The body [{username, email, password}] of a registration and the body
    [{userId, amount, currency}] of a payment creation, as the API table of
    the specification gives them. *)
Definition registration (u e p : string) : RegisterBody :=
  {| body_username := Some (JStr u);
     body_email := Some (JStr e);
     body_password := Some (JStr p) |}.

Definition paymentRequest (uid : string) (n : Z) (c : string) : PaymentBody :=
  {| body_userId := Some (JStr uid);
     body_amount := Some (JNum n);
     body_currency := Some (JStr c);
     body_status := None;
     body_createdAt := None |}.

(** ** Errors, responses and the server state *)

Inductive error : Type :=
| ValidationError (errors : list (string * ValidatorKind))
| MongoError_E11000 (key : string)
| CastErrorQuery (path_name : string).

Inductive payload : Type :=
| SentUser (user : User)
| SentPayment (payment : Payment)
| SentPayments (payments : list Payment)
| SentText (text : string)
| SentError (e : error).

Record response : Type := {
  statusCode : nat;
  sent : payload
}.

Record State : Type := {
  users : list User;
  payments : list Payment;
  index : N
}.

Definition initial : State := {| users := []; payments := []; index := 0 |}.

Definition generate (st : State) : State :=
  {| users := users st; payments := payments st; index := N.succ (index st) |}.

Definition insert_User (u : User) (st : State) : State :=
  {| users := users st ++ [u]; payments := payments st; index := index st |}.

Definition insert_Payment (p : Payment) (st : State) : State :=
  {| users := users st; payments := payments st ++ [p]; index := index st |}.

Section Server.
Context {C : Casters}.

(** [new User(req.body)]; no path of the User schema has a default, so the
    clock reading plays no part in it. *)
Definition new_User (id : ObjectId) (now : Date) (body : RegisterBody) : User :=
  {| User_id := id;
     username := construct UserSchema.username (fun v => of_option (castString v)) now (body_username body);
     email := construct UserSchema.email (fun v => of_option (castString v)) now (body_email body);
     password := construct UserSchema.password (fun v => of_option (castString v)) now (body_password body) |}.

(** [new Payment(req.body)] *)
Definition new_Payment (id : ObjectId) (now : Date) (body : PaymentBody) : Payment :=
  {| Payment_id := id;
     userId := construct PaymentSchema.userId (fun v => of_option (castObjectId v)) now (body_userId body);
     amount := construct PaymentSchema.amount castNumber now (body_amount body);
     currency := construct PaymentSchema.currency (fun v => of_option (castString v)) now (body_currency body);
     status := construct PaymentSchema.status (fun v => of_option (castString v)) now (body_status body);
     createdAt := construct PaymentSchema.createdAt castDate now (body_createdAt body) |}.

Definition validate_User (u : User) : list (string * ValidatorKind) :=
  validatePath UserSchema.username checkRequired_String String.eqb "username" (username u)
  ++ validatePath UserSchema.email checkRequired_String String.eqb "email" (email u)
  ++ validatePath UserSchema.password checkRequired_String String.eqb "password" (password u).

Definition validate_Payment (p : Payment) : list (string * ValidatorKind) :=
  validatePath PaymentSchema.userId checkRequired_ObjectId N.eqb "userId" (userId p)
  ++ validatePath PaymentSchema.amount checkRequired_Number Z.eqb "amount" (amount p)
  ++ validatePath PaymentSchema.currency checkRequired_String String.eqb "currency" (currency p)
  ++ validatePath PaymentSchema.status checkRequired_String String.eqb "status" (status p)
  ++ validatePath PaymentSchema.createdAt checkRequired_Date Z.eqb "createdAt" (createdAt p).

(** A unique index rejects a document whose key is already in the
    collection. *)
Definition duplicate {D T} (o : SchemaTypeOptions T) (eqb : T -> T -> bool)
    (get : D -> path T) (doc : D) (coll : list D) : bool :=
  unique o && existsb (fun d => path_eqb eqb (get d) (get doc)) coll.

(** The unique indexes of the User collection, in the order the schema
    declares (and so builds) them; the first one violated is reported. *)
Definition violated_User (u : User) (coll : list User) : option string :=
  if duplicate UserSchema.username String.eqb username u coll then Some "username"
  else if duplicate UserSchema.email String.eqb email u coll then Some "email"
  else if duplicate UserSchema.password String.eqb password u coll then Some "password"
  else None.

(** [await user.save()]: validate, then insert; [inl] is the thrown error. *)
Definition User_save (u : User) (st : State) : error + State :=
  match validate_User u with
  | [] =>
      match violated_User u (users st) with
      | Some key => inl (MongoError_E11000 key)
      | None => inr (insert_User u st)
      end
  | errors => inl (ValidationError errors)
  end.

(** [await payment.save()]; the Payment collection has no unique index
    besides [_id]. *)
Definition Payment_save (p : Payment) (st : State) : error + State :=
  match validate_Payment p with
  | [] => inr (insert_Payment p st)
  | errors => inl (ValidationError errors)
  end.

(** ** controllers/userController.js *)

(** [router.post('/register', ...)] *)
Definition register (now : Date) (body : RegisterBody) (st : State) : response * State :=
  let user := new_User (index st) now body in
  let st := generate st in
  match User_save user st with
  | inr st' => ({| statusCode := 201; sent := SentUser user |}, st')
  | inl e => ({| statusCode := 400; sent := SentError e |}, st)
  end.

(** [router.post('/login', ...)] *)
Definition login (body : LoginBody) (st : State) : response * State :=
  ({| statusCode := 200; sent := SentText "Login logic to be implemented" |}, st).

(** ** controllers/paymentController.js *)

(** [router.post('/', ...)] *)
Definition createPayment (now : Date) (body : PaymentBody) (st : State) : response * State :=
  let payment := new_Payment (index st) now body in
  let st := generate st in
  match Payment_save payment st with
  | inr st' => ({| statusCode := 201; sent := SentPayment payment |}, st')
  | inl e => ({| statusCode := 400; sent := SentError e |}, st)
  end.

(** The filter [{ userId: <id> }] of [Payment.find]. *)
Definition owned_by (id : ObjectId) (p : Payment) : bool :=
  path_eqb N.eqb (userId p) (Value id).

(** [router.get('/user/:userId', ...)]: the route parameter is a string;
    the query casts it to the type of the [userId] path. *)
Definition listPaymentsForUser (param : string) (st : State) : response * State :=
  match castObjectId (JStr param) with
  | Some id => ({| statusCode := 200; sent := SentPayments (filter (owned_by id) (payments st)) |}, st)
  | None => ({| statusCode := 400; sent := SentError (CastErrorQuery "userId") |}, st)
  end.

(** The same handler over a database that returns the documents of a
    collection in its own order: [natural] is that order, some
    rearrangement of the stored documents ([rearranges], below). *)
Definition listPaymentsForUser_natural (natural : list Payment -> list Payment)
    (param : string) (st : State) : response * State :=
  match castObjectId (JStr param) with
  | Some id =>
      ({| statusCode := 200;
          sent := SentPayments (filter (owned_by id) (natural (payments st))) |}, st)
  | None => ({| statusCode := 400; sent := SentError (CastErrorQuery "userId") |}, st)
  end.

(** ** The server as a transition system *)

Inductive request : Type :=
| PostRegister (now : Date) (body : RegisterBody)
| PostLogin (body : LoginBody)
| PostPayment (now : Date) (body : PaymentBody)
| GetUserPayments (param : string).

Definition handle (r : request) (st : State) : response * State :=
  match r with
  | PostRegister now body => register now body st
  | PostLogin body => login body st
  | PostPayment now body => createPayment now body st
  | GetUserPayments param => listPaymentsForUser param st
  end.

Fixpoint run (rs : list request) (st : State) : State :=
  match rs with
  | [] => st
  | r :: rs => run rs (snd (handle r st))
  end.

(** ** Vocabulary of the specification *)

(** [createPayment] answered 201 with the record [p], leaving state [st']. *)
Definition creates (now : Date) (body : PaymentBody) (st : State)
    (p : Payment) (st' : State) : Prop :=
  createPayment now body st = ({| statusCode := 201; sent := SentPayment p |}, st').

(** A user id resolves when some stored user has it. *)
Definition user_exists (id : ObjectId) (st : State) : bool :=
  existsb (fun u => N.eqb (User_id u) id) (users st).

Definition resolves (param : string) (st : State) : bool :=
  match castObjectId (JStr param) with
  | Some id => user_exists id st
  | None => false
  end.

(** Some stored user already has value [v] at the path [get]. *)
Definition taken (get : User -> path string) (v : string) (st : State) : bool :=
  existsb (fun u => path_eqb String.eqb (get u) (Value v)) (users st).

End Server.

(** Ascending [createdAt]; a payment without a date sorts first, as in a
    MongoDB sort. *)
Definition date_le (p q : Payment) : Prop :=
  match createdAt p, createdAt q with
  | Value a, Value b => (a <= b)%Z
  | Value _, _ => False
  | _, _ => True
  end.

Definition ascending (l : list Payment) : Prop := StronglySorted date_le l.

(** An order in which a database may return a collection: a
    rearrangement of its documents. *)
Definition rearranges (natural : list Payment -> list Payment) : Prop :=
  forall l, Permutation (natural l) l.

(** The three values of the [status] enumeration. *)
Definition enumerated (s : string) : Prop :=
  s = "pending" \/ s = "completed" \/ s = "failed".

(** The error taxonomy of the specification and the status code it assigns
    to each kind. *)
Module Spec.
Inductive ErrorKind : Type :=
| ValidationError
| Conflict
| NotFound
| Unauthorized
| Forbidden
| Unavailable.

Definition code (k : ErrorKind) : nat :=
  match k with
  | ValidationError => 400
  | Conflict => 409
  | NotFound => 404
  | Unauthorized => 401
  | Forbidden => 403
  | Unavailable => 503
  end.
End Spec.

(** ** Casters and states for the examples *)

Fixpoint hex_to_N (s : string) (acc : N) : option N :=
  match s with
  | EmptyString => Some acc
  | String ch s' =>
      match HexString.ascii_to_digit ch with
      | Some v => hex_to_N s' (v + 16 * acc)%N
      | None => None
      end
  end.

(** Casters for evaluating the examples.  They cast JSON strings to String,
    JSON numbers to Number and to Date, and strings of 24 hexadecimal digits
    to ObjectId; every other value is a cast error here, and the examples
    use none. *)
Definition example_casters : Casters :=
  {| castObjectId v :=
       match v with
       | JStr s => if (String.length s =? 24)%nat then hex_to_N s 0 else None
       | _ => None
       end;
     castNumber v := match v with JNum n => CastOk n | _ => CastError end;
     castString v := match v with JStr s => Some s | _ => None end;
     castDate v := match v with JNum n => CastOk n | _ => CastError end;
     castString_JStr := fun _ => eq_refl;
     castNumber_JNum := fun _ => eq_refl |}.

(** The hexadecimal form of the first generated ObjectId. *)
Definition id0 : string := "000000000000000000000000".

(** The state after alice registered on a fresh server. *)
Definition alice_registered : State :=
  snd (register (C := example_casters) 1000%Z
         (registration "alice" "alice@example.com" "hunter2") initial).

(** A creation whose body also sets [status] and [createdAt], two paths of
    the schema that [new Payment(req.body)] takes from the body like any
    other. *)
Definition settled_request (uid : string) (n : Z) (c st : string) (t : Date) : PaymentBody :=
  {| body_userId := Some (JStr uid);
     body_amount := Some (JNum n);
     body_currency := Some (JStr c);
     body_status := Some (JStr st);
     body_createdAt := Some (JNum t) |}.

(** A creation whose body has no [userId]. *)
Definition anonymous_request (n : Z) (c : string) : PaymentBody :=
  {| body_userId := None;
     body_amount := Some (JNum n);
     body_currency := Some (JStr c);
     body_status := None;
     body_createdAt := None |}.

(** Alice's server after two creations for her: P1, whose body dates it
    2000, at clock 1000, then P2 at clock 1001. *)
Definition two_payments : State :=
  run (C := example_casters)
    [PostPayment 1000%Z (settled_request id0 10 "USD" "pending" 2000);
     PostPayment 1001%Z (paymentRequest id0 20 "USD")]
    alice_registered.


Definition bob : RegisterBody := registration "bob" "bob@example.com" "hunter2".

(** ** Vocabulary for request bodies and traces *)

(** A key the [required] validator of a String path finds blank: absent,
    [null] or the empty string. *)
Definition blank (raw : option json) : Prop :=
  raw = None \/ raw = Some JNull \/ raw = Some (JStr EmptyString).

(** The body gives a path the value [v]: its key is there, is not [null]
    and casts to [v]; and the body gives a path something its type cannot
    cast. *)
Definition gives {T} (caster : json -> cast T) (raw : option json) (v : T) : Prop :=
  exists j, raw = Some j /\ j <> JNull /\ caster j = CastOk v.

Definition uncastable {T} (caster : json -> cast T) (raw : option json) : Prop :=
  exists j, raw = Some j /\ j <> JNull /\ caster j = CastError.

(** The casters of String and ObjectId paths, as [construct] receives
    them. *)
Definition asString {C : Casters} : json -> cast string :=
  fun v => of_option (castString v).

Definition asObjectId {C : Casters} : json -> cast ObjectId :=
  fun v => of_option (castObjectId v).

(** A required key that is absent or [null]; and a [status] the
    enumeration does not have. *)
Definition missing (raw : option json) : Prop :=
  raw = None \/ raw = Some JNull.

Definition off_enum {C : Casters} (raw : option json) : Prop :=
  raw = Some JNull \/ exists s, gives asString raw s /\ ~ enumerated s.

(** A required Number the body leaves without a value: absent, [null], or
    cast to [null]; and a required String it leaves without one: absent,
    [null], or cast to the empty string. *)
Definition no_Number {C : Casters} (raw : option json) : Prop :=
  missing raw \/ exists j, raw = Some j /\ j <> JNull /\ castNumber j = CastNull.

Definition no_String {C : Casters} (raw : option json) : Prop :=
  missing raw \/ gives asString raw EmptyString.

(** The requests whose handler calls [save]. *)
Definition is_write (r : request) : bool :=
  match r with
  | PostRegister _ _ | PostPayment _ _ => true
  | PostLogin _ | GetUserPayments _ => false
  end.

(** A stored user or payment with every path its schema requires. *)
Definition complete_User (u : User) : Prop :=
  exists n e p,
    username u = Value n /\ email u = Value e /\ password u = Value p
    /\ n <> EmptyString /\ e <> EmptyString /\ p <> EmptyString.

Definition complete_Payment (p : Payment) : Prop :=
  (exists n, amount p = Value n)
  /\ (exists c, currency p = Value c /\ c <> EmptyString)
  /\ userId p <> CastFail
  /\ createdAt p <> CastFail /\ createdAt p <> Undefined.

(** * Properties *)

Section Properties.
Context {C : Casters}.

(** ** Constructing and validating documents *)

Lemma new_Payment_request id now uid n c :
  new_Payment id now (paymentRequest uid n c) =
  {| Payment_id := id;
     userId := match castObjectId (JStr uid) with Some o => Value o | None => CastFail end;
     amount := Value n;
     currency := Value c;
     status := Value "pending";
     createdAt := Value now |}.
Proof.
  unfold new_Payment, paymentRequest, construct; simpl.
  rewrite castNumber_JNum, castString_JStr; simpl.
  destruct (castObjectId (JStr uid)); reflexivity.
Qed.

Lemma new_User_registration id now u e p :
  new_User id now (registration u e p) =
  {| User_id := id; username := Value u; email := Value e; password := Value p |}.
Proof.
  unfold new_User, registration, construct; simpl.
  now rewrite !castString_JStr.
Qed.

Lemma register_clock_irrelevant now1 now2 body st :
  register now1 body st = register now2 body st.
Proof. reflexivity. Qed.

Lemma checkRequired_String_true s : s <> EmptyString -> checkRequired_String s = true.
Proof.
  intros Hs. unfold checkRequired_String.
  destruct (String.eqb_spec s EmptyString); [contradiction | reflexivity].
Qed.

Lemma validate_Payment_request id now uid n c o :
  castObjectId (JStr uid) = Some o -> c <> EmptyString ->
  validate_Payment (new_Payment id now (paymentRequest uid n c)) = [].
Proof.
  intros Hid Hc. rewrite new_Payment_request, Hid.
  unfold validate_Payment, validatePath; simpl.
  now rewrite (checkRequired_String_true c Hc).
Qed.

(** ** The two outcomes of each POST handler *)

Lemma createPayment_saved now body st :
  validate_Payment (new_Payment (index st) now body) = [] ->
  createPayment now body st =
  ({| statusCode := 201; sent := SentPayment (new_Payment (index st) now body) |},
   insert_Payment (new_Payment (index st) now body) (generate st)).
Proof.
  intros Hv. unfold createPayment, Payment_save. now rewrite Hv.
Qed.

Lemma createPayment_rejected now body st :
  validate_Payment (new_Payment (index st) now body) <> [] ->
  createPayment now body st =
  ({| statusCode := 400;
      sent := SentError (ValidationError (validate_Payment (new_Payment (index st) now body))) |},
   generate st).
Proof.
  intros Hv. unfold createPayment, Payment_save.
  destruct (validate_Payment _); [contradiction | reflexivity].
Qed.

(** A 201 answer determines the record, says it passed validation, and
    says where it went. *)
Lemma creates_inv now body st p st' :
  creates now body st p st' ->
  p = new_Payment (index st) now body
  /\ validate_Payment p = []
  /\ st' = insert_Payment p (generate st).
Proof.
  unfold creates, createPayment, Payment_save.
  destruct (validate_Payment (new_Payment (index st) now body)) eqn:Hv;
    intros H; inversion H; subst; auto.
Qed.

Lemma createPayment_request now uid n c o st :
  castObjectId (JStr uid) = Some o -> c <> EmptyString ->
  creates now (paymentRequest uid n c) st
    {| Payment_id := index st; userId := Value o; amount := Value n;
       currency := Value c; status := Value "pending"; createdAt := Value now |}
    (insert_Payment
       {| Payment_id := index st; userId := Value o; amount := Value n;
          currency := Value c; status := Value "pending"; createdAt := Value now |}
       (generate st)).
Proof.
  intros Hid Hc. unfold creates.
  rewrite createPayment_saved by eauto using validate_Payment_request.
  now rewrite new_Payment_request, Hid.
Qed.

Lemma violated_User_registration id u e p st :
  violated_User {| User_id := id; username := Value u; email := Value e; password := Value p |}
    (users st) =
  if taken username u st then Some "username"
  else if taken email e st then Some "email" else None.
Proof. reflexivity. Qed.

Lemma validate_User_registration id u e p :
  u <> EmptyString -> e <> EmptyString -> p <> EmptyString ->
  validate_User {| User_id := id; username := Value u; email := Value e; password := Value p |} = [].
Proof.
  intros Hu He Hp. unfold validate_User, validatePath; simpl.
  now rewrite !checkRequired_String_true.
Qed.

Lemma register_registration now u e p st :
  u <> EmptyString -> e <> EmptyString -> p <> EmptyString ->
  register now (registration u e p) st =
  let user := {| User_id := index st; username := Value u; email := Value e; password := Value p |} in
  if taken username u st then
    ({| statusCode := 400; sent := SentError (MongoError_E11000 "username") |}, generate st)
  else if taken email e st then
    ({| statusCode := 400; sent := SentError (MongoError_E11000 "email") |}, generate st)
  else ({| statusCode := 201; sent := SentUser user |}, insert_User user (generate st)).
Proof.
  intros Hu He Hp. unfold register, User_save.
  rewrite new_User_registration, validate_User_registration by assumption.
  change (users (generate st)) with (users st).
  rewrite violated_User_registration.
  destruct (taken username u st); [reflexivity |].
  destruct (taken email e st); reflexivity.
Qed.

(** ** Registration and login *)

(** C1. On the code, a registration [{username, email, password}] with
    non-empty fields whose username and email are not yet stored does
    succeed with 201, but what is sent back is the stored document itself,
    and its [password] path holds the password exactly as submitted: the
    model stores no hash and the handler projects no public view. *)
Theorem register_returns_raw_password st now u e p :
  u <> EmptyString -> e <> EmptyString -> p <> EmptyString ->
  taken username u st = false -> taken email e st = false ->
  exists user,
    register now (registration u e p) st =
      ({| statusCode := 201; sent := SentUser user |}, insert_User user (generate st))
    /\ In user (users (insert_User user (generate st)))
    /\ password user = Value p.
Proof.
  intros Hu He Hp Tu Te.
  exists {| User_id := index st; username := Value u; email := Value e; password := Value p |}.
  rewrite register_registration by assumption. cbv zeta. rewrite Tu, Te.
  repeat split. simpl. apply in_or_app. right. now left.
Qed.

(** C2. On the code, the login handler is a stub: whatever the body and
    whatever the stored users, it answers 200 with a fixed placeholder text
    and leaves the state alone; it never answers Unauthorized. *)
Theorem login_is_placeholder body st :
  login body st =
    ({| statusCode := 200; sent := SentText "Login logic to be implemented" |}, st)
  /\ statusCode (fst (login body st)) <> Spec.code Spec.Unauthorized.
Proof. split; [reflexivity | discriminate]. Qed.

(** The one part of C2 the stub does satisfy: no two login responses can
    be told apart. *)
Lemma login_indistinguishable body1 st1 body2 st2 :
  fst (login body1 st1) = fst (login body2 st2).
Proof. reflexivity. Qed.

(** C7 (amended). A registration with non-empty fields whose username or
    email is already stored is answered with status 400, not 409; the error
    sent is the storage layer's duplicate-key error, which names the
    colliding field ([username] when both collide), and no user is stored. *)
Theorem register_duplicate_is_400 st now u e p :
  u <> EmptyString -> e <> EmptyString -> p <> EmptyString ->
  taken username u st = true \/ taken email e st = true ->
  register now (registration u e p) st =
    ({| statusCode := 400;
        sent := SentError (MongoError_E11000
                  (if taken username u st then "username" else "email")) |},
     generate st)
  /\ users (snd (register now (registration u e p) st)) = users st.
Proof.
  intros Hu He Hp Hdup.
  rewrite register_registration by assumption. cbv zeta.
  case_eq (taken username u st); intros Tu.
  - split; reflexivity.
  - destruct Hdup as [Hdup | Hdup]; [congruence |].
    rewrite Hdup. split; reflexivity.
Qed.

(** ** Payment creation *)

(** C3 (amended). Creation makes no referential check: for a body
    [{userId, amount, currency}] whose [userId] casts to an ObjectId and
    whose currency is not empty, the payment is stored and returned with
    201, whatever the User collection holds.  The only [userId] rejected is
    one that cannot be cast: 400, and nothing is inserted. *)
Theorem createPayment_no_referential_check st now uid n c :
  c <> EmptyString ->
  (forall o, castObjectId (JStr uid) = Some o ->
     exists p,
       creates now (paymentRequest uid n c) st p (insert_Payment p (generate st))
       /\ userId p = Value o
       /\ payments (insert_Payment p (generate st)) = payments st ++ [p])
  /\ (castObjectId (JStr uid) = None ->
      statusCode (fst (createPayment now (paymentRequest uid n c) st)) = 400
      /\ payments (snd (createPayment now (paymentRequest uid n c) st)) = payments st).
Proof.
  intros Hc. split.
  - intros o Ho. eexists. split; [apply createPayment_request; eassumption |].
    split; reflexivity.
  - intros Hnone. rewrite createPayment_rejected.
    + split; reflexivity.
    + rewrite new_Payment_request, Hnone. discriminate.
Qed.

(** C4 (amended). The schema puts no bound on [amount]: a zero or negative
    amount is stored like any other (201), given a castable [userId] and a
    non-empty currency.  A [ValidationError] (400) that creates nothing is
    what a body without [amount] gets. *)
Theorem createPayment_amount_unbounded st now :
  (forall uid o n c,
     castObjectId (JStr uid) = Some o -> c <> EmptyString -> (n <= 0)%Z ->
     exists p,
       creates now (paymentRequest uid n c) st p (insert_Payment p (generate st))
       /\ amount p = Value n
       /\ payments (insert_Payment p (generate st)) = payments st ++ [p])
  /\ (forall body,
       body_amount body = None ->
       exists errors,
         fst (createPayment now body st) =
           {| statusCode := 400; sent := SentError (ValidationError errors) |}
         /\ In ("amount", KRequired) errors
         /\ payments (snd (createPayment now body st)) = payments st).
Proof.
  split.
  - intros uid o n c Ho Hc _. eexists.
    split; [apply createPayment_request; eassumption | split; reflexivity].
  - intros body Hb.
    assert (Hin : In ("amount", KRequired)
                    (validate_Payment (new_Payment (index st) now body))).
    { unfold validate_Payment. apply in_or_app. right. apply in_or_app. left.
      simpl. rewrite Hb. simpl. now left. }
    eexists. rewrite createPayment_rejected.
    + split; [reflexivity | split; [exact Hin | reflexivity]].
    + intros Hnil. rewrite Hnil in Hin. exact Hin.
Qed.

(** C10. A body that omits [userId] altogether, with a numeric amount and a
    non-empty currency, is accepted: 201, and the record stored and returned
    is the body as it came, with the schema's defaults and no [userId]: the
    body's [amount] and [currency], status [pending], the clock reading as
    [createdAt]. *)
Theorem createPayment_without_userId st now n c :
  c <> EmptyString ->
  exists p,
    creates now (anonymous_request n c) st p (insert_Payment p (generate st))
    /\ In p (payments (insert_Payment p (generate st)))
    /\ payments (insert_Payment p (generate st)) = payments st ++ [p]
    /\ userId p = Undefined
    /\ amount p = Value n
    /\ currency p = Value c
    /\ status p = Value "pending"
    /\ createdAt p = Value now.
Proof.
  intros Hc.
  exists {| Payment_id := index st; userId := Undefined; amount := Value n;
            currency := Value c; status := Value "pending";
            createdAt := Value now |}.
  split; [| split; [simpl; apply in_or_app; right; now left | repeat split]].
  unfold creates. rewrite createPayment_saved.
  - unfold new_Payment, construct; simpl.
    now rewrite castNumber_JNum, castString_JStr.
  - unfold validate_Payment, new_Payment, construct, validatePath; simpl.
    rewrite castNumber_JNum, castString_JStr; simpl.
    now rewrite (checkRequired_String_true c Hc).
Qed.

(** ** Listing *)

Lemma owned_by_iff id p : owned_by id p = true <-> userId p = Value id.
Proof.
  unfold owned_by. destruct (userId p) as [| | o |]; simpl;
    try (split; [discriminate | discriminate]).
  rewrite N.eqb_eq. split; congruence.
Qed.

Lemma listPaymentsForUser_cast param id st :
  castObjectId (JStr param) = Some id ->
  listPaymentsForUser param st =
  ({| statusCode := 200; sent := SentPayments (filter (owned_by id) (payments st)) |}, st).
Proof. intros H. unfold listPaymentsForUser. now rewrite H. Qed.

Lemma listPaymentsForUser_state param st : snd (listPaymentsForUser param st) = st.
Proof. unfold listPaymentsForUser. now destruct (castObjectId (JStr param)). Qed.

(** A request leaves the Payment collection as it is or appends the one
    record a creation answered with. *)
Lemma handle_payments r st :
  payments (snd (handle r st)) = payments st
  \/ exists now body p,
       r = PostPayment now body
       /\ creates now body st p (snd (handle r st))
       /\ payments (snd (handle r st)) = payments st ++ [p].
Proof.
  destruct r as [now body | body | now body | param]; simpl.
  - left. unfold register, User_save.
    destruct (validate_User _); [destruct (violated_User _ _) |]; reflexivity.
  - now left.
  - destruct (validate_Payment (new_Payment (index st) now body)) eqn:Hv.
    + right. exists now, body, (new_Payment (index st) now body).
      rewrite (createPayment_saved _ _ _ Hv). repeat split.
      unfold creates. now rewrite (createPayment_saved _ _ _ Hv).
    + left. rewrite createPayment_rejected by (rewrite Hv; discriminate).
      reflexivity.
  - left. now rewrite listPaymentsForUser_state.
Qed.

Lemma run_keeps_payments rs : forall st p,
  In p (payments st) -> In p (payments (run rs st)).
Proof.
  induction rs as [| r rs IH]; intros st p Hin; simpl; [assumption |].
  apply IH. destruct (handle_payments r st) as [-> | (? & ? & q & _ & _ & ->)].
  - assumption.
  - apply in_or_app. now left.
Qed.

(** C6 (amended). For a [userId] that casts to an ObjectId and owns no
    payment the listing is the empty sequence with status 200, whether or
    not a user with that id exists; the handler never answers NotFound (its
    only error is 400, for an id that cannot be cast) and never changes the
    state. *)
Theorem listPaymentsForUser_never_NotFound st param :
  (forall id, castObjectId (JStr param) = Some id ->
     filter (owned_by id) (payments st) = [] ->
     fst (listPaymentsForUser param st) = {| statusCode := 200; sent := SentPayments [] |})
  /\ (castObjectId (JStr param) = None ->
      statusCode (fst (listPaymentsForUser param st)) = 400)
  /\ statusCode (fst (listPaymentsForUser param st)) <> Spec.code Spec.NotFound
  /\ snd (listPaymentsForUser param st) = st.
Proof.
  unfold listPaymentsForUser.
  destruct (castObjectId (JStr param)) as [id |]; simpl.
  - repeat split; try discriminate.
    intros ? [= <-] ->. reflexivity.
  - repeat split; discriminate.
Qed.

Lemma Permutation_filter {A} (f : A -> bool) l l' :
  Permutation l l' -> Permutation (filter f l) (filter f l').
Proof.
  induction 1 as [| x l l' _ IH | x y l | l l' l'' _ IH1 _ IH2]; simpl.
  - constructor.
  - destruct (f x); [now constructor | assumption].
  - destruct (f x), (f y); try reflexivity. constructor.
  - now transitivity (filter f l').
Qed.

Lemma listPaymentsForUser_insertion param st :
  listPaymentsForUser param st = listPaymentsForUser_natural (fun l => l) param st.
Proof. reflexivity. Qed.

(** C5 (amended). For a [userId] that casts to an ObjectId, and in whatever
    order the database returns the collection, the listing is answered 200
    with exactly the payments stored with that [userId], each as often as
    it is stored; no order is promised, by [createdAt] or otherwise.  In
    particular, after creating P1 and then P2 for that user, the listing
    holds P1 and P2 besides what it held before. *)
Theorem listPaymentsForUser_any_order natural st param id :
  rearranges natural ->
  castObjectId (JStr param) = Some id ->
  exists l,
    fst (listPaymentsForUser_natural natural param st) =
      {| statusCode := 200; sent := SentPayments l |}
    /\ Permutation l (filter (owned_by id) (payments st))
    /\ (forall p, In p l <-> In p (payments st) /\ userId p = Value id)
    /\ (forall now1 body1 p1 st1 now2 body2 p2 st2,
         creates now1 body1 st p1 st1 -> creates now2 body2 st1 p2 st2 ->
         userId p1 = Value id -> userId p2 = Value id ->
         exists l2,
           fst (listPaymentsForUser_natural natural param st2) =
             {| statusCode := 200; sent := SentPayments l2 |}
           /\ Permutation l2 (l ++ [p1; p2])
           /\ In p1 l2 /\ In p2 l2).
Proof.
  intros Hnat Hid. unfold listPaymentsForUser_natural. rewrite Hid. simpl.
  exists (filter (owned_by id) (natural (payments st))).
  assert (Hl : Permutation (filter (owned_by id) (natural (payments st)))
                 (filter (owned_by id) (payments st)))
    by apply Permutation_filter, Hnat.
  split; [reflexivity |]. split; [exact Hl |]. split.
  - intros p. rewrite <- owned_by_iff, <- filter_In.
    split; apply Permutation_in; [exact Hl | now symmetry].
  - intros now1 body1 p1 st1 now2 body2 p2 st2 H1 H2 U1 U2.
    apply creates_inv in H1 as (_ & _ & ->).
    apply creates_inv in H2 as (_ & _ & ->).
    exists (filter (owned_by id) (natural ((payments st ++ [p1]) ++ [p2]))).
    apply owned_by_iff in U1, U2.
    assert (Hl2 : Permutation
                    (filter (owned_by id) (natural ((payments st ++ [p1]) ++ [p2])))
                    (filter (owned_by id) (natural (payments st)) ++ [p1; p2])).
    { transitivity (filter (owned_by id) ((payments st ++ [p1]) ++ [p2])).
      - apply Permutation_filter, Hnat.
      - rewrite !filter_app. simpl. rewrite U1, U2, <- app_assoc. simpl.
        apply Permutation_app_tail. now symmetry. }
    split; [reflexivity |]. split; [exact Hl2 |].
    split; apply (Permutation_in _ (Permutation_sym Hl2)), in_or_app; right;
      simpl; auto.
Qed.

(** ** Round trip and the status enumeration *)

Lemma new_Payment_default_status id now body :
  body_status body = None -> status (new_Payment id now body) = Value "pending".
Proof. intros H. unfold new_Payment; simpl. now rewrite H. Qed.

Lemma validatePath_status p :
  validatePath PaymentSchema.status checkRequired_String String.eqb "status" p = [] ->
  p = Undefined \/ exists s, p = Value s /\ enumerated s.
Proof.
  destruct p as [| | v |]; simpl; try discriminate; [now left |].
  intros Hv. right. exists v. split; [reflexivity |]. unfold enumerated.
  destruct (String.eqb_spec v "pending"); [now left |].
  destruct (String.eqb_spec v "completed"); [now right; left |].
  destruct (String.eqb_spec v "failed"); [now right; right | discriminate].
Qed.

Lemma construct_status_defined caster now raw :
  construct PaymentSchema.status caster now raw <> Undefined.
Proof.
  destruct raw as [j |]; simpl; [| discriminate].
  destruct j; try discriminate; simpl; destruct (caster _); discriminate.
Qed.

(** A constructed payment that passes validation has an enumerated status:
    the default fills an absent one, and the validator rejects the rest. *)
Lemma validated_status id now body :
  validate_Payment (new_Payment id now body) = [] ->
  exists s, status (new_Payment id now body) = Value s /\ enumerated s.
Proof.
  unfold validate_Payment. intros Hv.
  do 3 (apply app_eq_nil in Hv as [_ Hv]).
  apply app_eq_nil in Hv as [Hv _].
  apply validatePath_status in Hv as [Hv | Hv]; [| exact Hv].
  now apply construct_status_defined in Hv.
Qed.

Lemma run_status rs : forall st,
  Forall (fun p => exists s, status p = Value s /\ enumerated s) (payments st) ->
  Forall (fun p => exists s, status p = Value s /\ enumerated s) (payments (run rs st)).
Proof.
  induction rs as [| r rs IH]; intros st Hst; simpl; [assumption |].
  apply IH.
  destruct (handle_payments r st) as [-> | (now & body & p & _ & Hcr & ->)];
    [assumption |].
  apply Forall_app. split; [assumption |]. constructor; [| constructor].
  apply creates_inv in Hcr as (Hp & Hv & _). subst p.
  now apply validated_status.
Qed.

(** C9. Every payment the server has stored, after any sequence of requests
    from the empty database, has a status among [pending], [completed] and
    [failed]; and a payment created from a body without [status] has status
    [pending]. *)
Theorem stored_status_enumerated :
  (forall rs, Forall (fun p => exists s, status p = Value s /\ enumerated s)
                (payments (run rs initial)))
  /\ (forall now body st p st',
       body_status body = None -> creates now body st p st' ->
       status p = Value "pending" /\ In p (payments st')).
Proof.
  split.
  - intros rs. apply run_status. constructor.
  - intros now body st p st' Hnone Hcr.
    apply creates_inv in Hcr as (-> & _ & ->). split.
    + now apply new_Payment_default_status.
    + simpl. apply in_or_app. right. now left.
Qed.

(** C8 (amended). A record returned by a successful creation that carries a
    [userId] is retrievable unchanged, all paths equal, by every later
    listing for that [userId], whatever requests come in between; its
    status is [pending] when the request gave none, and otherwise the
    enumerated value the request gave. *)
Theorem created_payment_is_listed now body st p st' :
  creates now body st p st' ->
  (body_status body = None -> status p = Value "pending")
  /\ (exists s, status p = Value s /\ enumerated s)
  /\ (forall id param rs,
       userId p = Value id -> castObjectId (JStr param) = Some id ->
       exists l,
         fst (listPaymentsForUser param (run rs st')) =
           {| statusCode := 200; sent := SentPayments l |}
         /\ In p l).
Proof.
  intros Hcr. destruct (creates_inv _ _ _ _ _ Hcr) as (Hp & Hv & Hst).
  split; [| split].
  - intros Hnone. rewrite Hp. now apply new_Payment_default_status.
  - rewrite Hp in *. now apply validated_status.
  - intros id param rs Hu Hid.
    exists (filter (owned_by id) (payments (run rs st'))).
    rewrite (listPaymentsForUser_cast _ _ _ Hid). split; [reflexivity |].
    apply filter_In. split; [| now apply owned_by_iff].
    apply run_keeps_payments. rewrite Hst. simpl.
    apply in_or_app. right. now left.
Qed.

(** A record stored without a [userId] is in no listing at all. *)
Lemma unowned_never_listed param st l p :
  fst (listPaymentsForUser param st) = {| statusCode := 200; sent := SentPayments l |} ->
  userId p = Undefined -> ~ In p l.
Proof.
  unfold listPaymentsForUser.
  destruct (castObjectId (JStr param)) as [id |]; simpl; intros [= <-] Hu Hin.
  apply filter_In in Hin as [_ Hin]. apply owned_by_iff in Hin. congruence.
Qed.

(** * Further properties of the handlers *)

(** ** What a request does to the collections *)

Lemma register_saved now body st :
  validate_User (new_User (index st) now body) = [] ->
  violated_User (new_User (index st) now body) (users st) = None ->
  register now body st =
  ({| statusCode := 201; sent := SentUser (new_User (index st) now body) |},
   insert_User (new_User (index st) now body) (generate st)).
Proof.
  intros Hv Hu. unfold register, User_save. rewrite Hv.
  change (users (generate st)) with (users st). now rewrite Hu.
Qed.

Lemma register_invalid now body st :
  validate_User (new_User (index st) now body) <> [] ->
  register now body st =
  ({| statusCode := 400;
      sent := SentError (ValidationError (validate_User (new_User (index st) now body))) |},
   generate st).
Proof.
  intros Hv. unfold register, User_save.
  destruct (validate_User _); [contradiction | reflexivity].
Qed.

Lemma register_duplicate now body st key :
  validate_User (new_User (index st) now body) = [] ->
  violated_User (new_User (index st) now body) (users st) = Some key ->
  register now body st =
  ({| statusCode := 400; sent := SentError (MongoError_E11000 key) |}, generate st).
Proof.
  intros Hv Hu. unfold register, User_save. rewrite Hv.
  change (users (generate st)) with (users st). now rewrite Hu.
Qed.

(** The three outcomes of a registration, by cases. *)
Lemma register_cases now body st :
  (validate_User (new_User (index st) now body) <> []
   /\ register now body st =
      ({| statusCode := 400;
          sent := SentError (ValidationError (validate_User (new_User (index st) now body))) |},
       generate st))
  \/ (validate_User (new_User (index st) now body) = []
      /\ exists key,
           violated_User (new_User (index st) now body) (users st) = Some key
           /\ register now body st =
              ({| statusCode := 400; sent := SentError (MongoError_E11000 key) |},
               generate st))
  \/ (validate_User (new_User (index st) now body) = []
      /\ violated_User (new_User (index st) now body) (users st) = None
      /\ register now body st =
         ({| statusCode := 201; sent := SentUser (new_User (index st) now body) |},
          insert_User (new_User (index st) now body) (generate st))).
Proof.
  destruct (validate_User (new_User (index st) now body)) eqn:Hv.
  - destruct (violated_User (new_User (index st) now body) (users st)) as [key |] eqn:Hu.
    + right; left. split; [reflexivity |]. exists key.
      split; [reflexivity | now apply register_duplicate].
    + right; right. repeat split. now apply register_saved.
  - left. split; [discriminate |].
    rewrite <- Hv. apply register_invalid. rewrite Hv. discriminate.
Qed.

(** A request leaves the User collection as it is or appends the one user
    a registration answered with. *)
Lemma handle_users r st :
  users (snd (handle r st)) = users st
  \/ exists now body,
       r = PostRegister now body
       /\ validate_User (new_User (index st) now body) = []
       /\ violated_User (new_User (index st) now body) (users st) = None
       /\ users (snd (handle r st)) = users st ++ [new_User (index st) now body].
Proof.
  destruct r as [now body | body | now body | param]; simpl.
  - destruct (register_cases now body st)
      as [[_ ->] | [(_ & key & _ & ->) | (Hv & Hu & ->)]]; auto.
    right. exists now, body. auto.
  - now left.
  - left. unfold createPayment, Payment_save.
    destruct (validate_Payment _); reflexivity.
  - left. now rewrite listPaymentsForUser_state.
Qed.

(** X8. Each of the four handlers, for whatever request reaches it, answers
    200, 201 or 400.  A 201 answer adds exactly one document to one
    collection, the document it sends back, and leaves the other collection
    alone; every other answer leaves both collections as they were. *)
Theorem one_document_per_201 r st :
  (statusCode (fst (handle r st)) = 201
   /\ ((exists u, sent (fst (handle r st)) = SentUser u
                  /\ Permutation (users (snd (handle r st))) (u :: users st)
                  /\ payments (snd (handle r st)) = payments st)
       \/ (exists p, sent (fst (handle r st)) = SentPayment p
                     /\ Permutation (payments (snd (handle r st))) (p :: payments st)
                     /\ users (snd (handle r st)) = users st)))
  \/ ((statusCode (fst (handle r st)) = 200 \/ statusCode (fst (handle r st)) = 400)
      /\ users (snd (handle r st)) = users st
      /\ payments (snd (handle r st)) = payments st).
Proof.
  destruct r as [now body | body | now body | param]; simpl.
  - destruct (register_cases now body st)
      as [[_ ->] | [(_ & key & _ & ->) | (_ & _ & ->)]]; simpl.
    + right. auto.
    + right. auto.
    + left. split; [reflexivity |]. left. eexists.
      split; [reflexivity | split; [| reflexivity]].
      symmetry. apply Permutation_cons_append.
  - right. auto.
  - destruct (validate_Payment (new_Payment (index st) now body)) eqn:Hv.
    + rewrite (createPayment_saved _ _ _ Hv). simpl.
      left. split; [reflexivity |]. right. eexists.
      split; [reflexivity | split; [| reflexivity]].
      symmetry. apply Permutation_cons_append.
    + rewrite createPayment_rejected by (rewrite Hv; discriminate). simpl.
      right. auto.
  - unfold listPaymentsForUser.
    destruct (castObjectId (JStr param)); simpl; right; auto.
Qed.

(** X9. The collections are append-only: after any sequence of requests
    each collection is what it was, followed by what was added; no request
    removes or changes a stored document. *)
Theorem collections_append_only rs : forall st,
  exists us ps,
    users (run rs st) = users st ++ us
    /\ payments (run rs st) = payments st ++ ps.
Proof.
  induction rs as [| r rs IH]; intros st; simpl.
  - exists [], []. now rewrite !app_nil_r.
  - destruct (IH (snd (handle r st))) as (us & ps & -> & ->).
    destruct (handle_users r st) as [-> | (? & ? & _ & _ & _ & ->)];
      destruct (handle_payments r st) as [-> | (? & ? & ? & _ & _ & ->)];
      rewrite <- ?app_assoc; eauto.
Qed.

(** X13. Logins and listings are no-ops on the state: dropping them from a
    sequence of requests changes nothing in the state the sequence ends
    in. *)
Theorem reads_are_noops rs : forall st,
  run rs st = run (filter is_write rs) st.
Proof.
  induction rs as [| r rs IH]; intros st; [reflexivity |].
  destruct r as [now body | body | now body | param]; simpl;
    rewrite ?listPaymentsForUser_state; apply IH.
Qed.

(** ** What validation lets through *)

Lemma construct_CastFail {T} (o : SchemaTypeOptions T) caster now raw :
  construct o caster now raw = CastFail <-> uncastable caster raw.
Proof.
  unfold construct, uncastable. split.
  - destruct raw as [j |]; [| destruct (default o); discriminate].
    intros H. exists j. split; [reflexivity |].
    destruct j; try discriminate;
      (split; [discriminate |]); destruct (caster _); try discriminate; reflexivity.
  - intros (j & -> & Hj & Hc).
    destruct j; try contradiction; now rewrite Hc.
Qed.

Lemma construct_Value {T} (o : SchemaTypeOptions T) caster now raw v :
  construct o caster now raw = Value v <->
  (raw = None /\ exists d, default o = Some d /\ v = d now) \/ gives caster raw v.
Proof.
  unfold construct, gives. split.
  - destruct raw as [j |].
    + intros H. right. exists j. split; [reflexivity |].
      destruct j; try discriminate;
        (split; [discriminate |]); destruct (caster _); try discriminate;
        congruence.
    + destruct (default o) as [d |]; [| discriminate].
      intros [= <-]. left. eauto.
  - intros [(-> & d & -> & ->) | (j & -> & Hj & Hc)]; [reflexivity |].
    destruct j; try contradiction; now rewrite Hc.
Qed.

Lemma validatePath_optional {T} (o : SchemaTypeOptions T) cr eqb name p :
  required o = false -> enum o = None ->
  validatePath o cr eqb name p = [] <-> p <> CastFail.
Proof.
  intros Hr He. unfold validatePath. rewrite Hr, He.
  destruct p; simpl; split; congruence.
Qed.

Lemma validatePath_required_Number name p :
  validatePath PaymentSchema.amount checkRequired_Number Z.eqb name p = [] <->
  exists n, p = Value n.
Proof.
  destruct p as [| | n |]; simpl; split;
    try discriminate; try (intros [? ?]; discriminate); eauto.
Qed.

Lemma validatePath_required_String (o : SchemaTypeOptions string) name p :
  required o = true -> enum o = None ->
  validatePath o checkRequired_String String.eqb name p = [] <->
  exists s, p = Value s /\ s <> EmptyString.
Proof.
  intros Hr He. unfold validatePath, checkRequired_String. rewrite Hr, He.
  destruct p as [| | v |]; simpl; split;
    try discriminate; try (intros (? & ? & ?); discriminate).
  - destruct (String.eqb_spec v EmptyString); [discriminate |]. eauto.
  - intros (x & [= <-] & Hx).
    destruct (String.eqb_spec v EmptyString); [contradiction | reflexivity].
Qed.

Lemma validatePath_enumerated s :
  enumerated s ->
  validatePath PaymentSchema.status checkRequired_String String.eqb "status" (Value s) = [].
Proof. intros [-> | [-> | ->]]; reflexivity. Qed.

Lemma validate_User_complete u : validate_User u = [] <-> complete_User u.
Proof.
  unfold validate_User, complete_User. split.
  - intros H. apply app_eq_nil in H as [Hn H]. apply app_eq_nil in H as [He Hp].
    apply validatePath_required_String in Hn as (n & ? & ?); try reflexivity.
    apply validatePath_required_String in He as (e & ? & ?); try reflexivity.
    apply validatePath_required_String in Hp as (p & ? & ?); try reflexivity.
    exists n, e, p. repeat split; assumption.
  - intros (n & e & p & Hn & He & Hp & ? & ? & ?).
    rewrite Hn, He, Hp.
    rewrite (proj2 (validatePath_required_String UserSchema.username _ _ eq_refl eq_refl))
      by eauto.
    rewrite (proj2 (validatePath_required_String UserSchema.email _ _ eq_refl eq_refl))
      by eauto.
    rewrite (proj2 (validatePath_required_String UserSchema.password _ _ eq_refl eq_refl))
      by eauto.
    reflexivity.
Qed.

Lemma validate_Payment_nil p :
  validate_Payment p = [] <->
  userId p <> CastFail
  /\ (exists n, amount p = Value n)
  /\ (exists c, currency p = Value c /\ c <> EmptyString)
  /\ (status p = Undefined \/ exists s, status p = Value s /\ enumerated s)
  /\ createdAt p <> CastFail.
Proof.
  unfold validate_Payment. split.
  - intros H. apply app_eq_nil in H as [Hu H]. apply app_eq_nil in H as [Ha H].
    apply app_eq_nil in H as [Hc H]. apply app_eq_nil in H as [Hs Hd].
    apply validatePath_optional in Hu; try reflexivity.
    apply validatePath_required_Number in Ha.
    apply validatePath_required_String in Hc; try reflexivity.
    apply validatePath_status in Hs.
    apply validatePath_optional in Hd; try reflexivity.
    auto.
  - intros (Hu & Ha & Hc & Hs & Hd).
    rewrite (proj2 (validatePath_optional PaymentSchema.userId _ _ _ _ eq_refl eq_refl) Hu).
    rewrite (proj2 (validatePath_required_Number _ _) Ha).
    rewrite (proj2 (validatePath_required_String PaymentSchema.currency _ _ eq_refl eq_refl) Hc).
    rewrite (proj2 (validatePath_optional PaymentSchema.createdAt _ _ _ _ eq_refl eq_refl) Hd).
    destruct Hs as [-> | (v & -> & Hv)]; [reflexivity |].
    now rewrite validatePath_enumerated.
Qed.

Lemma created_status_pending_or_given now id body s :
  status (new_Payment id now body) = Value s <->
  (body_status body = None /\ s = "pending") \/ gives asString (body_status body) s.
Proof.
  unfold new_Payment; simpl. fold asString. rewrite construct_Value. simpl.
  split.
  - intros [(Hn & d & [= <-] & ->) | Hg]; [left | right]; auto.
  - intros [(Hn & ->) | Hg]; [left | right]; eauto.
Qed.

Lemma construct_default_defined {T} (o : SchemaTypeOptions T) caster now raw d :
  default o = Some d -> construct o caster now raw <> Undefined.
Proof.
  intros Hd. unfold construct. rewrite Hd.
  destruct raw as [j |]; [| discriminate].
  destruct j; try discriminate; destruct (caster _); discriminate.
Qed.

Lemma validated_Payment_complete id now body :
  validate_Payment (new_Payment id now body) = [] ->
  complete_Payment (new_Payment id now body).
Proof.
  intros H. apply validate_Payment_nil in H as (Hu & Ha & Hc & _ & Hd).
  repeat split; try assumption.
  unfold new_Payment; simpl. now apply construct_default_defined with (d := fun t => t).
Qed.

(** ** Invariants of the stored collections *)


(** X2. Every user the server has stored, after any sequence of requests
    from the empty database, has a non-empty string at each of [username],
    [email] and [password]. *)
Theorem stored_users_complete rs :
  Forall complete_User (users (run rs initial)).
Proof.
  assert (Hgen : forall st, Forall complete_User (users st) ->
                            Forall complete_User (users (run rs st))).
  { induction rs as [| r rs IH]; intros st Hst; simpl; [assumption |].
    apply IH.
    destruct (handle_users r st) as [-> | (now & body & _ & Hv & _ & ->)];
      [assumption |].
    apply Forall_app. split; [assumption |].
    constructor; [| constructor]. now apply validate_User_complete. }
  apply Hgen. constructor.
Qed.

(** X3. Every payment the server has stored has a numeric [amount] and a
    non-empty [currency]; its [userId] is an ObjectId, [null] or absent,
    and its [createdAt] is a date or [null], never absent. *)
Theorem stored_payments_complete rs :
  Forall complete_Payment (payments (run rs initial)).
Proof.
  assert (Hgen : forall st, Forall complete_Payment (payments st) ->
                            Forall complete_Payment (payments (run rs st))).
  { induction rs as [| r rs IH]; intros st Hst; simpl; [assumption |].
    apply IH.
    destruct (handle_payments r st) as [-> | (now & body & p & _ & Hcr & ->)];
      [assumption |].
    apply Forall_app. split; [assumption |].
    constructor; [| constructor].
    apply creates_inv in Hcr as (-> & Hv & _).
    now apply validated_Payment_complete. }
  apply Hgen. constructor.
Qed.

Lemma path_eqb_eq (p q : path string) : path_eqb String.eqb p q = true <-> p = q.
Proof.
  destruct p, q; simpl; split; try discriminate; try reflexivity.
  - intros H. apply String.eqb_eq in H. now subst.
  - intros [= ->]. apply String.eqb_refl.
Qed.

Lemma not_duplicate (get : User -> path string) u coll :
  existsb (fun d => path_eqb String.eqb (get d) (get u)) coll = false ->
  ~ In (get u) (map get coll).
Proof.
  intros Hex Hin. apply in_map_iff in Hin as (d & Hd & Hin).
  assert (Htrue : existsb (fun d => path_eqb String.eqb (get d) (get u)) coll = true).
  { apply existsb_exists. exists d. split; [assumption |]. now apply path_eqb_eq. }
  congruence.
Qed.

Lemma violated_User_None u coll :
  violated_User u coll = None ->
  ~ In (username u) (map username coll) /\ ~ In (email u) (map email coll).
Proof.
  unfold violated_User, duplicate; simpl.
  destruct (existsb _ coll) eqn:Hn; [discriminate |].
  destruct (existsb (fun d => path_eqb String.eqb (email d) (email u)) coll) eqn:He;
    [discriminate |].
  intros _. split; now apply not_duplicate.
Qed.

Lemma NoDup_snoc {A} (l : list A) x : NoDup l -> ~ In x l -> NoDup (l ++ [x]).
Proof.
  induction 1 as [| a l Ha Hl IH]; simpl; intros Hx.
  - constructor; [intros [] | constructor].
  - constructor.
    + rewrite in_app_iff. intros [Hin | [-> | []]]; [contradiction |].
      apply Hx. now left.
    + apply IH. intros Hin. apply Hx. now right.
Qed.

(** X1. The unique indexes hold at all times: after any sequence of
    requests from the empty database no two stored users have the same
    [username], and no two the same [email]. *)
Theorem usernames_and_emails_unique rs :
  NoDup (map username (users (run rs initial)))
  /\ NoDup (map email (users (run rs initial))).
Proof.
  assert (Hgen : forall st,
             NoDup (map username (users st)) /\ NoDup (map email (users st)) ->
             NoDup (map username (users (run rs st)))
             /\ NoDup (map email (users (run rs st)))).
  { induction rs as [| r rs IH]; intros st [Hn He]; simpl; [now split |].
    apply IH.
    destruct (handle_users r st) as [-> | (now & body & _ & _ & Hu & ->)];
      [now split |].
    apply violated_User_None in Hu as [Hun Hue].
    rewrite !map_app. simpl. split; now apply NoDup_snoc. }
  apply Hgen. split; constructor.
Qed.

(** ** Which registrations are accepted *)

Lemma new_User_given id now body u e p :
  gives asString (body_username body) u ->
  gives asString (body_email body) e ->
  gives asString (body_password body) p ->
  new_User id now body =
  {| User_id := id; username := Value u; email := Value e; password := Value p |}.
Proof.
  intros Hu He Hp. unfold new_User. fold asString.
  rewrite (proj2 (construct_Value UserSchema.username asString now _ u) (or_intror Hu)).
  rewrite (proj2 (construct_Value UserSchema.email asString now _ e) (or_intror He)).
  rewrite (proj2 (construct_Value UserSchema.password asString now _ p) (or_intror Hp)).
  reflexivity.
Qed.

Lemma complete_User_given id now body :
  complete_User (new_User id now body) ->
  exists u e p,
    gives asString (body_username body) u
    /\ gives asString (body_email body) e
    /\ gives asString (body_password body) p
    /\ u <> EmptyString /\ e <> EmptyString /\ p <> EmptyString.
Proof.
  intros (u & e & p & Hu & He & Hp & ? & ? & ?). exists u, e, p.
  unfold new_User in Hu, He, Hp; simpl in Hu, He, Hp. fold asString in Hu, He, Hp.
  apply construct_Value in Hu as [(_ & d & Hd & _) | Hu]; [discriminate Hd |].
  apply construct_Value in He as [(_ & d & Hd & _) | He]; [discriminate Hd |].
  apply construct_Value in Hp as [(_ & d & Hd & _) | Hp]; [discriminate Hd |].
  repeat split; assumption.
Qed.

(** X5. A registration whose body carries only keys among [username],
    [email] and [password] (so no [_id] and no [__v]) is answered 201
    exactly when the body gives the three of them values that cast to
    non-empty strings and no stored user has that username or that email.
    Of such a body nothing else is checked: not the form of the email, not
    the strength or uniqueness of the password. *)
Theorem register_accepts_iff now body st :
  statusCode (fst (register now body st)) = 201 <->
  exists u e p,
    gives asString (body_username body) u
    /\ gives asString (body_email body) e
    /\ gives asString (body_password body) p
    /\ u <> EmptyString /\ e <> EmptyString /\ p <> EmptyString
    /\ taken username u st = false /\ taken email e st = false.
Proof.
  split.
  - destruct (register_cases now body st)
      as [[_ ->] | [(_ & key & _ & ->) | (Hv & Hu & _)]]; try discriminate.
    intros _. apply validate_User_complete, complete_User_given in Hv
      as (u & e & p & Gu & Ge & Gp & Nu & Ne & Np).
    rewrite (new_User_given _ _ _ _ _ _ Gu Ge Gp), violated_User_registration in Hu.
    exists u, e, p.
    destruct (taken username u st); [discriminate |].
    destruct (taken email e st); [discriminate |].
    repeat split; assumption.
  - intros (u & e & p & Gu & Ge & Gp & Nu & Ne & Np & Tu & Te).
    rewrite register_saved; [reflexivity | |];
      rewrite (new_User_given _ _ _ _ _ _ Gu Ge Gp).
    + apply validate_User_complete. exists u, e, p. repeat split; assumption.
    + rewrite violated_User_registration. now rewrite Tu, Te.
Qed.

Lemma blank_required (o : SchemaTypeOptions string) name now raw :
  required o = true -> default o = None -> blank raw ->
  validatePath o checkRequired_String String.eqb name (construct o asString now raw)
  = [(name, KRequired)].
Proof.
  intros Hr Hd [-> | [-> | ->]]; unfold construct, validatePath, asString.
  - now rewrite Hd, Hr.
  - now rewrite Hr.
  - rewrite castString_JStr; simpl. now rewrite Hr.
Qed.

(** X4. A registration whose body leaves [username], [email] or [password]
    blank (absent, [null] or the empty string) is answered 400 with a
    [ValidationError] that names every blank path as required, and stores
    nothing; this comes before the uniqueness check, whatever the database
    holds. *)
Theorem register_rejects_blank now body st :
  blank (body_username body) \/ blank (body_email body) \/ blank (body_password body) ->
  exists errors,
    register now body st =
      ({| statusCode := 400; sent := SentError (ValidationError errors) |}, generate st)
    /\ users (generate st) = users st
    /\ (blank (body_username body) -> In ("username", KRequired) errors)
    /\ (blank (body_email body) -> In ("email", KRequired) errors)
    /\ (blank (body_password body) -> In ("password", KRequired) errors).
Proof.
  intros Hblank.
  assert (Hu : blank (body_username body) ->
               In ("username", KRequired) (validate_User (new_User (index st) now body))).
  { intros Hb. unfold validate_User, new_User; simpl. fold asString.
    rewrite (blank_required UserSchema.username _ _ _ eq_refl eq_refl Hb). now left. }
  assert (He : blank (body_email body) ->
               In ("email", KRequired) (validate_User (new_User (index st) now body))).
  { intros Hb. unfold validate_User, new_User; simpl. fold asString.
    rewrite (blank_required UserSchema.email _ _ _ eq_refl eq_refl Hb).
    apply in_or_app. right. now left. }
  assert (Hp : blank (body_password body) ->
               In ("password", KRequired) (validate_User (new_User (index st) now body))).
  { intros Hb. unfold validate_User, new_User; simpl. fold asString.
    rewrite (blank_required UserSchema.password _ _ _ eq_refl eq_refl Hb).
    apply in_or_app. right. apply in_or_app. right. now left. }
  exists (validate_User (new_User (index st) now body)).
  split; [| split; [reflexivity | repeat split; assumption]].
  apply register_invalid. intros Hnil. rewrite Hnil in Hu, He, Hp.
  destruct Hblank as [Hb | [Hb | Hb]];
    [exact (Hu Hb) | exact (He Hb) | exact (Hp Hb)].
Qed.


(** ** Which creations are accepted *)

Lemma createPayment_201_iff now body st :
  statusCode (fst (createPayment now body st)) = 201 <->
  validate_Payment (new_Payment (index st) now body) = [].
Proof.
  destruct (validate_Payment (new_Payment (index st) now body)) eqn:Hv.
  - rewrite (createPayment_saved _ _ _ Hv). simpl. tauto.
  - rewrite createPayment_rejected by (rewrite Hv; discriminate). simpl.
    split; discriminate.
Qed.



(** *** What the error of a rejected creation names *)

Lemma construct_Undefined {T} (o : SchemaTypeOptions T) caster now raw :
  construct o caster now raw = Undefined <-> raw = None /\ default o = None.
Proof.
  unfold construct. split.
  - destruct raw as [j |].
    + destruct j; try discriminate; destruct (caster _); discriminate.
    + destruct (default o); [discriminate | auto].
  - intros [-> ->]. reflexivity.
Qed.

Lemma construct_Null {T} (o : SchemaTypeOptions T) caster now raw :
  construct o caster now raw = Null <->
  raw = Some JNull \/ exists j, raw = Some j /\ j <> JNull /\ caster j = CastNull.
Proof.
  unfold construct. split.
  - destruct raw as [j |]; [| destruct (default o); discriminate].
    destruct j; auto; intros H; right; eexists; (split; [reflexivity |]);
      (split; [discriminate |]); destruct (caster _); try discriminate; reflexivity.
  - intros [-> | (j & -> & Hj & Hc)]; [reflexivity |].
    destruct j; try contradiction; now rewrite Hc.
Qed.

Lemma asString_not_null j : asString j <> CastNull.
Proof. unfold asString. destruct (castString j); discriminate. Qed.

(** The entries one path can contribute. *)
Lemma In_validatePath {T} (o : SchemaTypeOptions T) cr eqb name p x :
  In x (validatePath o cr eqb name p) ->
  (x = (name, KCastError) /\ p = CastFail)
  \/ (x = (name, KRequired) /\ required o = true
      /\ (p = Undefined \/ p = Null \/ exists v, p = Value v /\ cr v = false))
  \/ (x = (name, KEnum) /\ enum o <> None
      /\ (p = Null \/ exists v vs, p = Value v /\ enum o = Some vs
                                   /\ existsb (eqb v) vs = false)).
Proof.
  unfold validatePath. destruct p as [| | v |].
  - destruct (required o) eqn:Hr; simpl; [| tauto].
    intros [<- | []]. right; left. auto.
  - destruct (required o) eqn:Hr; simpl.
    + intros [<- | []]. right; left. auto.
    + destruct (enum o) eqn:He; simpl; [| tauto].
      intros [<- | []]. right; right. split; [reflexivity |]. split; [discriminate | auto].
  - destruct (required o) eqn:Hr; simpl.
    + destruct (cr v) eqn:Hc; simpl.
      * destruct (enum o) as [vs |] eqn:He; simpl; [| tauto].
        destruct (existsb (eqb v) vs) eqn:Hex; simpl; [tauto |].
        intros [<- | []]. right; right.
        split; [reflexivity |]. split; [discriminate |]. right. eauto.
      * intros [<- | []]. right; left. split; [reflexivity |]. split; [reflexivity |].
        right; right. eauto.
    + destruct (enum o) as [vs |] eqn:He; simpl; [| tauto].
      destruct (existsb (eqb v) vs) eqn:Hex; simpl; [tauto |].
      intros [<- | []]. right; right.
      split; [reflexivity |]. split; [discriminate |]. right. eauto.
  - simpl. intros [<- | []]. left. auto.
Qed.

Lemma In_validatePath_cast {T} (o : SchemaTypeOptions T) cr eqb name p :
  In (name, KCastError) (validatePath o cr eqb name p) <-> p = CastFail.
Proof.
  split.
  - intros H. apply In_validatePath in H as [[_ H] | [[H _] | [H _]]];
      [assumption | discriminate H | discriminate H].
  - intros ->. now left.
Qed.

Lemma In_validatePath_amount p :
  In ("amount", KRequired)
     (validatePath PaymentSchema.amount checkRequired_Number Z.eqb "amount" p)
  <-> p = Undefined \/ p = Null.
Proof.
  split.
  - intros H. apply In_validatePath in H as [[H _] | [(_ & _ & H) | [H _]]];
      try discriminate H.
    destruct H as [H | [H | (v & _ & H)]]; auto. discriminate H.
  - intros [-> | ->]; now left.
Qed.

Lemma In_validatePath_currency p :
  In ("currency", KRequired)
     (validatePath PaymentSchema.currency checkRequired_String String.eqb "currency" p)
  <-> p = Undefined \/ p = Null \/ p = Value EmptyString.
Proof.
  split.
  - intros H. apply In_validatePath in H as [[H _] | [(_ & _ & H) | [H _]]];
      try discriminate H.
    destruct H as [H | [H | (v & -> & H)]]; auto.
    unfold checkRequired_String in H.
    destruct (String.eqb_spec v EmptyString) as [E |]; [rewrite E; auto | discriminate H].
  - intros [-> | [-> | ->]]; now left.
Qed.

Lemma not_enumerated_KEnum s :
  ~ enumerated s ->
  validatePath PaymentSchema.status checkRequired_String String.eqb "status" (Value s)
  = [("status", KEnum)].
Proof.
  unfold enumerated. intros Hs. simpl.
  destruct (String.eqb_spec s "pending"); [tauto |].
  destruct (String.eqb_spec s "completed"); [tauto |].
  destruct (String.eqb_spec s "failed"); [tauto | reflexivity].
Qed.

Lemma In_validatePath_status p :
  In ("status", KEnum)
     (validatePath PaymentSchema.status checkRequired_String String.eqb "status" p)
  <-> p = Null \/ exists s, p = Value s /\ ~ enumerated s.
Proof.
  split.
  - destruct p as [| | s |].
    + simpl. intros [].
    + intros _. now left.
    + intros H. right. exists s. split; [reflexivity |]. intros He.
      rewrite (validatePath_enumerated s He) in H. exact H.
    + simpl. intros [H | []]. discriminate H.
  - intros [-> | (s & -> & Hs)]; [now left |].
    rewrite (not_enumerated_KEnum s Hs). now left.
Qed.

(** The five parts of the error list, and the names that tell them
    apart. *)
Lemma In_validate_Payment x p :
  In x (validate_Payment p) <->
  In x (validatePath PaymentSchema.userId checkRequired_ObjectId N.eqb "userId" (userId p))
  \/ In x (validatePath PaymentSchema.amount checkRequired_Number Z.eqb "amount" (amount p))
  \/ In x (validatePath PaymentSchema.currency checkRequired_String String.eqb "currency" (currency p))
  \/ In x (validatePath PaymentSchema.status checkRequired_String String.eqb "status" (status p))
  \/ In x (validatePath PaymentSchema.createdAt checkRequired_Date Z.eqb "createdAt" (createdAt p)).
Proof. unfold validate_Payment. now rewrite !in_app_iff. Qed.

Lemma In_validatePath_name {T} (o : SchemaTypeOptions T) cr eqb name p n k :
  In (n, k) (validatePath o cr eqb name p) -> n = name.
Proof.
  intros H. apply In_validatePath in H as [[H _] | [[H _] | [H _]]]; congruence.
Qed.

Ltac other_path H :=
  apply In_validatePath_name in H; discriminate H.

(** X11. A creation that is not answered 201 is answered 400 with a
    [ValidationError], and nothing is stored.  The error names each failing
    path with its reason and names nothing else: a cast error for a
    [userId], [amount], [currency], [status] or [createdAt] that cannot be
    cast; [required] for an [amount] that is absent, [null] or cast to
    [null] and for a [currency] that is absent, [null] or cast to the empty
    string; [enum] for a [status] that is [null] or outside the
    enumeration. *)
Theorem createPayment_names_failures now body st :
  statusCode (fst (createPayment now body st)) <> 201 ->
  exists errors,
    createPayment now body st =
      ({| statusCode := 400; sent := SentError (ValidationError errors) |}, generate st)
    /\ payments (generate st) = payments st
    /\ errors <> []
    /\ (In ("userId", KCastError) errors <-> uncastable asObjectId (body_userId body))
    /\ (In ("amount", KCastError) errors <-> uncastable castNumber (body_amount body))
    /\ (In ("amount", KRequired) errors <-> no_Number (body_amount body))
    /\ (In ("currency", KCastError) errors <-> uncastable asString (body_currency body))
    /\ (In ("currency", KRequired) errors <-> no_String (body_currency body))
    /\ (In ("status", KCastError) errors <-> uncastable asString (body_status body))
    /\ (In ("status", KEnum) errors <-> off_enum (body_status body))
    /\ (In ("createdAt", KCastError) errors <-> uncastable castDate (body_createdAt body))
    /\ (forall x, In x errors ->
          In x [("userId", KCastError); ("amount", KCastError); ("amount", KRequired);
                ("currency", KCastError); ("currency", KRequired);
                ("status", KCastError); ("status", KEnum); ("createdAt", KCastError)]).
Proof.
  intros Hrej.
  assert (Hv : validate_Payment (new_Payment (index st) now body) <> []).
  { intros Hnil. apply Hrej. now apply createPayment_201_iff. }
  exists (validate_Payment (new_Payment (index st) now body)).
  split; [now apply createPayment_rejected |].
  split; [reflexivity |]. split; [exact Hv |].
  repeat split.
  - intros H. apply In_validate_Payment in H as [H | [H | [H | [H | H]]]];
      try other_path H.
    apply In_validatePath_cast in H. now apply construct_CastFail in H.
  - intros H. apply In_validate_Payment. left.
    apply In_validatePath_cast. now apply construct_CastFail.
  - intros H. apply In_validate_Payment in H as [H | [H | [H | [H | H]]]];
      try other_path H.
    apply In_validatePath_cast in H. now apply construct_CastFail in H.
  - intros H. apply In_validate_Payment. right; left.
    apply In_validatePath_cast. now apply construct_CastFail.
  - intros H. apply In_validate_Payment in H as [H | [H | [H | [H | H]]]];
      try other_path H.
    apply In_validatePath_amount in H as [H | H].
    + apply construct_Undefined in H as [H _]. left. now left.
    + apply construct_Null in H as [H | H]; [left; now right | now right].
  - intros H. apply In_validate_Payment. right; left.
    apply In_validatePath_amount.
    destruct H as [[H | H] | H].
    + left. apply construct_Undefined. auto.
    + right. apply construct_Null. auto.
    + right. apply construct_Null. auto.
  - intros H. apply In_validate_Payment in H as [H | [H | [H | [H | H]]]];
      try other_path H.
    apply In_validatePath_cast in H. now apply construct_CastFail in H.
  - intros H. apply In_validate_Payment. right; right; left.
    apply In_validatePath_cast. now apply construct_CastFail.
  - intros H. apply In_validate_Payment in H as [H | [H | [H | [H | H]]]];
      try other_path H.
    apply In_validatePath_currency in H as [H | [H | H]].
    + apply construct_Undefined in H as [H _]. left. now left.
    + apply construct_Null in H as [H | (j & _ & _ & H)].
      * left. now right.
      * now apply asString_not_null in H.
    + apply construct_Value in H as [(_ & d & Hd & _) | H]; [discriminate Hd |].
      now right.
  - intros H. apply In_validate_Payment. right; right; left.
    apply In_validatePath_currency.
    destruct H as [[H | H] | H].
    + left. apply construct_Undefined. auto.
    + right; left. apply construct_Null. auto.
    + right; right. apply construct_Value. now right.
  - intros H. apply In_validate_Payment in H as [H | [H | [H | [H | H]]]];
      try other_path H.
    apply In_validatePath_cast in H. now apply construct_CastFail in H.
  - intros H. apply In_validate_Payment. right; right; right; left.
    apply In_validatePath_cast. now apply construct_CastFail.
  - intros H. apply In_validate_Payment in H as [H | [H | [H | [H | H]]]];
      try other_path H.
    apply In_validatePath_status in H as [H | (s & H & Hs)].
    + apply construct_Null in H as [H | (j & _ & _ & H)].
      * now left.
      * now apply asString_not_null in H.
    + apply construct_Value in H as [(_ & d & [= <-] & ->) | H].
      * exfalso. apply Hs. now left.
      * right. eauto.
  - intros H. apply In_validate_Payment. right; right; right; left.
    apply In_validatePath_status.
    destruct H as [H | (s & H & Hs)].
    + left. apply construct_Null. auto.
    + right. exists s. split; [| assumption]. apply construct_Value. now right.
  - intros H. apply In_validate_Payment in H as [H | [H | [H | [H | H]]]];
      try other_path H.
    apply In_validatePath_cast in H. now apply construct_CastFail in H.
  - intros H. apply In_validate_Payment. right; right; right; right.
    apply In_validatePath_cast. now apply construct_CastFail.
  - intros x H. apply In_validate_Payment in H as [H | [H | [H | [H | H]]]];
      apply In_validatePath in H as [[-> _] | [(-> & Hr & _) | (-> & He & _)]];
      simpl; try discriminate Hr; try (now contradiction He); tauto.
Qed.

(** ** Listings and the requests of other users *)



(** ** How requests compose *)

Lemma validate_Payment_body id now id' now' body :
  validate_Payment (new_Payment id now body) = [] ->
  validate_Payment (new_Payment id' now' body) = [].
Proof.
  rewrite !validate_Payment_nil. unfold new_Payment; simpl.
  rewrite !construct_CastFail.
  intros (Hu & Ha & Hc & Hs & Hd). repeat split; assumption.
Qed.

(** X12. Creation is not idempotent: a body carrying only keys among the
    declared paths (so no [_id] and no [__v]) that was accepted once is
    accepted again, at any clock, and the second answer stores a second
    record besides the first, with the same [userId], [amount], [currency]
    and [status], and the same [createdAt] when the body sets it or the
    clock reads the same. *)
Theorem createPayment_not_idempotent now body st p st' now' :
  creates now body st p st' ->
  exists p',
    creates now' body st' p' (insert_Payment p' (generate st'))
    /\ payments (insert_Payment p' (generate st')) = payments st ++ [p; p']
    /\ userId p' = userId p /\ amount p' = amount p
    /\ currency p' = currency p /\ status p' = status p
    /\ (body_createdAt body <> None \/ now' = now -> createdAt p' = createdAt p).
Proof.
  intros Hcr. apply creates_inv in Hcr as (-> & Hv & ->).
  exists (new_Payment (index (insert_Payment (new_Payment (index st) now body) (generate st)))
            now' body).
  split; [| split].
  - unfold creates. apply createPayment_saved.
    now apply validate_Payment_body with (id := index st) (now := now).
  - simpl. now rewrite <- app_assoc.
  - repeat split. unfold new_Payment; simpl.
    intros [Hb | ->]; [| reflexivity].
    destruct (body_createdAt body); [reflexivity | contradiction].
Qed.

(** X14. A payment created from a body whose [userId] is absent or [null]
    is stored, and no listing, for any [userId] and at any later time,
    ever returns it. *)
Theorem payment_without_user_never_listed now body st p st' :
  creates now body st p st' -> missing (body_userId body) ->
  In p (payments st')
  /\ forall rs param l,
       fst (listPaymentsForUser param (run rs st')) =
         {| statusCode := 200; sent := SentPayments l |} ->
       ~ In p l.
Proof.
  intros Hcr Hm. apply creates_inv in Hcr as (-> & _ & ->). split.
  - simpl. apply in_or_app. right. now left.
  - intros rs param l. unfold listPaymentsForUser.
    destruct (castObjectId (JStr param)) as [id |]; simpl; intros [= <-] Hin.
    apply filter_In in Hin as [_ Hin]. apply owned_by_iff in Hin.
    unfold new_Payment in Hin; simpl in Hin.
    destruct Hm as [Hm | Hm]; rewrite Hm in Hin; discriminate Hin.
Qed.

Lemma taken_insert_User get v user st :
  taken get v (insert_User user (generate st)) =
  taken get v st || path_eqb String.eqb (get user) (Value v).
Proof.
  unfold taken; simpl. rewrite existsb_app. simpl. now rewrite orb_false_r.
Qed.

(** X15. After a registration that was answered 201, a registration with
    non-empty fields whose username and email were free before it is
    answered 201 exactly when its username and its email both differ from
    the first one's; the passwords play no part. *)
Theorem second_registration_iff now u e p st now' u' e' p' :
  statusCode (fst (register now (registration u e p) st)) = 201 ->
  u' <> EmptyString -> e' <> EmptyString -> p' <> EmptyString ->
  taken username u' st = false -> taken email e' st = false ->
  statusCode (fst (register now' (registration u' e' p')
                     (snd (register now (registration u e p) st)))) = 201
  <-> u' <> u /\ e' <> e.
Proof.
  intros H201 Nu' Ne' Np' Tu' Te'.
  destruct (register_cases now (registration u e p) st)
    as [[_ Hr] | [(_ & key & _ & Hr) | (_ & _ & Hr)]];
    rewrite Hr in H201; try discriminate H201.
  rewrite Hr. simpl snd. rewrite new_User_registration.
  rewrite register_registration by assumption. cbv zeta.
  rewrite !taken_insert_User, Tu', Te'. simpl.
  destruct (String.eqb_spec u u') as [-> | Hu].
  - simpl. split; [discriminate | intros [H _]; now contradiction H].
  - destruct (String.eqb_spec e e') as [-> | He]; simpl.
    + split; [discriminate | intros [_ H]; now contradiction H].
    + split; [intros _; split; congruence | reflexivity].
Qed.

End Properties.

(** * Examples

    Each general statement above evaluated on the example casters, and the
    inputs on which the specification's sentences fail on the code. *)

Lemma register_returns_raw_password_witness :
  exists user,
    register (C := example_casters) 1000%Z
      (registration "alice" "alice@example.com" "hunter2") initial =
      ({| statusCode := 201; sent := SentUser user |},
       insert_User user (generate initial))
    /\ In user (users (insert_User user (generate initial)))
    /\ password user = Value "hunter2".
Proof.
  apply (@register_returns_raw_password example_casters initial 1000%Z
           "alice" "alice@example.com" "hunter2");
    (discriminate || reflexivity).
Defined.

(** C7: alice's name is taken, and the answer to a second alice is not
    Conflict. *)
Lemma register_conflict_counterexample :
  taken username "alice" alice_registered = true
  /\ ~ statusCode (fst (register (C := example_casters) 1001%Z
                          (registration "alice" "other@example.com" "secret")
                          alice_registered))
      = Spec.code Spec.Conflict.
Proof. split; [reflexivity | vm_compute; discriminate]. Defined.

Lemma register_duplicate_is_400_witness :
  register (C := example_casters) 1001%Z
    (registration "alice" "other@example.com" "secret") alice_registered =
    ({| statusCode := 400; sent := SentError (MongoError_E11000 "username") |},
     generate alice_registered)
  /\ users (snd (register (C := example_casters) 1001%Z
                   (registration "alice" "other@example.com" "secret")
                   alice_registered)) = users alice_registered.
Proof.
  apply (@register_duplicate_is_400 example_casters alice_registered 1001%Z
           "alice" "other@example.com" "secret");
    try discriminate.
  left. reflexivity.
Defined.

(** C3: no user is stored, the [userId] resolves to none, and yet the
    answer is not NotFound and a payment is inserted. *)
Lemma createPayment_unknown_user_counterexample :
  resolves (C := example_casters) id0 initial = false
  /\ ~ (statusCode (fst (createPayment (C := example_casters) 1000%Z
                          (paymentRequest id0 10 "USD") initial))
        = Spec.code Spec.NotFound
        /\ payments (snd (createPayment (C := example_casters) 1000%Z
                            (paymentRequest id0 10 "USD") initial))
           = payments initial).
Proof.
  split; [reflexivity |]. intros [H _]. vm_compute in H. discriminate H.
Defined.

Lemma createPayment_no_referential_check_witness :
  exists p,
    creates (C := example_casters) 1000%Z (paymentRequest id0 10 "USD") initial p
      (insert_Payment p (generate initial))
    /\ userId p = Value 0%N
    /\ payments (insert_Payment p (generate initial)) = payments initial ++ [p].
Proof.
  refine (proj1 (@createPayment_no_referential_check example_casters initial
                   1000%Z id0 10%Z "USD" _) 0%N _);
    [discriminate | reflexivity].
Defined.

(** C4: the specification's own example, amount -5 in USD for a valid
    user, is not answered with a ValidationError, and a record is created. *)
Lemma createPayment_negative_amount_counterexample :
  resolves (C := example_casters) id0 alice_registered = true
  /\ ~ (statusCode (fst (createPayment (C := example_casters) 1000%Z
                          (paymentRequest id0 (-5) "USD") alice_registered))
        = Spec.code Spec.ValidationError
        /\ payments (snd (createPayment (C := example_casters) 1000%Z
                            (paymentRequest id0 (-5) "USD") alice_registered))
           = payments alice_registered).
Proof.
  split; [reflexivity |]. intros [H _]. vm_compute in H. discriminate H.
Defined.

Lemma createPayment_amount_unbounded_witness :
  exists p,
    creates (C := example_casters) 1000%Z (paymentRequest id0 (-5) "USD")
      alice_registered p (insert_Payment p (generate alice_registered))
    /\ amount p = Value (-5)%Z
    /\ payments (insert_Payment p (generate alice_registered))
       = payments alice_registered ++ [p].
Proof.
  refine (proj1 (@createPayment_amount_unbounded example_casters
                   alice_registered 1000%Z) id0 0%N (-5)%Z "USD" _ _ _);
    [reflexivity | discriminate | lia].
Defined.

Lemma createPayment_without_userId_witness :
  exists p,
    creates (C := example_casters) 1000%Z (anonymous_request 10 "USD")
      alice_registered p (insert_Payment p (generate alice_registered))
    /\ In p (payments (insert_Payment p (generate alice_registered)))
    /\ payments (insert_Payment p (generate alice_registered))
       = payments alice_registered ++ [p]
    /\ userId p = Undefined
    /\ amount p = Value 10%Z
    /\ currency p = Value "USD"
    /\ status p = Value "pending"
    /\ createdAt p = Value 1000%Z.
Proof.
  apply (@createPayment_without_userId example_casters alice_registered
           1000%Z 10%Z "USD").
  discriminate.
Defined.

(** C6: on the empty database the [userId] resolves to no user, and the
    listing is not answered with NotFound. *)
Lemma listPaymentsForUser_unknown_user_counterexample :
  ~ (statusCode (fst (listPaymentsForUser (C := example_casters) id0 initial))
       = Spec.code Spec.NotFound
     <-> resolves (C := example_casters) id0 initial = false).
Proof.
  intros [_ H]. specialize (H eq_refl). vm_compute in H. discriminate H.
Defined.

Lemma listPaymentsForUser_never_NotFound_witness :
  fst (listPaymentsForUser (C := example_casters) id0 initial) =
    {| statusCode := 200; sent := SentPayments [] |}.
Proof.
  refine (proj1 (@listPaymentsForUser_never_NotFound example_casters initial id0)
            0%N _ _);
    reflexivity.
Defined.

(** C5: P1 is created first with a body that dates it 2000, P2 second at
    clock 1001.  In whatever order the database returns them, the listing
    holds these two records and is not both ascending in [createdAt] and
    P1 before P2: the two halves of the sentence exclude each other. *)
Lemma listPaymentsForUser_order_counterexample :
  exists p1 st1 p2,
    creates (C := example_casters) 1000%Z
      (settled_request id0 10 "USD" "pending" 2000) alice_registered p1 st1
    /\ creates (C := example_casters) 1001%Z (paymentRequest id0 20 "USD")
         st1 p2 two_payments
    /\ forall natural, rearranges natural ->
         exists l,
           fst (listPaymentsForUser_natural (C := example_casters) natural id0
                  two_payments) =
             {| statusCode := 200; sent := SentPayments l |}
           /\ Permutation l [p1; p2]
           /\ ~ (ascending l /\ l = [p1; p2]).
Proof.
  do 3 eexists. split; [reflexivity |]. split; [reflexivity |].
  intros natural Hnat. eexists. split; [reflexivity |]. split.
  - exact (Permutation_filter (owned_by 0%N) _ _ (Hnat (payments two_payments))).
  - intros [Hasc Heq]. rewrite Heq in Hasc.
    apply StronglySorted_inv in Hasc as [_ H].
    inversion H as [| ? ? Hle _]; subst.
    unfold date_le in Hle; simpl in Hle. lia.
Defined.

Lemma listPaymentsForUser_any_order_witness :
  exists l,
    fst (listPaymentsForUser_natural (C := example_casters) (@rev Payment) id0
           two_payments) =
      {| statusCode := 200; sent := SentPayments l |}
    /\ Permutation l (filter (owned_by 0%N) (payments two_payments))
    /\ (forall p, In p l <-> In p (payments two_payments) /\ userId p = Value 0%N).
Proof.
  destruct (@listPaymentsForUser_any_order example_casters (@rev Payment)
              two_payments id0 0%N
              (fun l => Permutation_sym (Permutation_rev l)) eq_refl)
    as (l & Hl & Hperm & Hin & _).
  exists l. split; [exact Hl | split; [exact Hperm | exact Hin]].
Defined.

(** C8: a creation that sets [status] returns a record that is not
    [pending]; and a creation without [userId] returns a record that no
    listing retrieves. *)
Lemma created_payment_counterexample :
  (exists p st',
     creates (C := example_casters) 1000%Z
       (settled_request id0 10 "USD" "completed" 1000) alice_registered p st'
     /\ status p <> Value "pending")
  /\ (exists p st',
        creates (C := example_casters) 1000%Z (anonymous_request 10 "USD")
          alice_registered p st'
        /\ forall param l,
             fst (listPaymentsForUser (C := example_casters) param st') =
               {| statusCode := 200; sent := SentPayments l |} ->
             ~ In p l).
Proof.
  split.
  - do 2 eexists. split; [reflexivity | discriminate].
  - do 2 eexists. split; [reflexivity |].
    intros param l Hl. eapply unowned_never_listed; [exact Hl | reflexivity].
Defined.

Lemma created_payment_is_listed_witness :
  exists p l,
    status p = Value "pending"
    /\ fst (listPaymentsForUser (C := example_casters) id0
              (run (C := example_casters)
                 [PostPayment 1001%Z (paymentRequest id0 20 "USD")]
                 (insert_Payment p (generate alice_registered)))) =
         {| statusCode := 200; sent := SentPayments l |}
    /\ In p l.
Proof.
  pose proof (@created_payment_is_listed example_casters 1000%Z
                (paymentRequest id0 10 "USD") alice_registered _ _ eq_refl)
    as (Hpending & _ & Hlisted).
  destruct (Hlisted 0%N id0 [PostPayment 1001%Z (paymentRequest id0 20 "USD")]
              eq_refl eq_refl) as (l & Hl & Hin).
  eexists. exists l. split; [exact (Hpending eq_refl) |]. split; [exact Hl | exact Hin].
Defined.

Lemma stored_status_enumerated_witness :
  exists p,
    status p = Value "pending"
    /\ In p (payments (insert_Payment p (generate alice_registered))).
Proof.
  eexists.
  refine (proj2 (@stored_status_enumerated example_casters) 1000%Z
            (paymentRequest id0 10 "USD") alice_registered _ _ eq_refl _).
  reflexivity.
Defined.

(** ** The further properties on the example casters *)

Lemma register_rejects_blank_witness :
  exists errors,
    register (C := example_casters) 1001%Z
      {| body_username := Some (JStr "alice"); body_email := None;
         body_password := Some (JStr EmptyString) |} alice_registered =
      ({| statusCode := 400; sent := SentError (ValidationError errors) |},
       generate alice_registered)
    /\ In ("email", KRequired) errors /\ In ("password", KRequired) errors.
Proof.
  destruct (@register_rejects_blank example_casters 1001%Z
              {| body_username := Some (JStr "alice"); body_email := None;
                 body_password := Some (JStr EmptyString) |} alice_registered)
    as (errors & Hr & _ & _ & He & Hp).
  - right. left. left. reflexivity.
  - exists errors. split; [exact Hr | split].
    + apply He. left. reflexivity.
    + apply Hp. right. right. reflexivity.
Defined.

Lemma register_accepts_iff_witness :
  statusCode (fst (register (C := example_casters) 1001%Z bob alice_registered)) = 201.
Proof.
  apply (proj2 (@register_accepts_iff example_casters 1001%Z bob alice_registered)).
  exists "bob", "bob@example.com", "hunter2".
  repeat split; try discriminate;
    (eexists; split; [reflexivity | split; [discriminate | reflexivity]]).
Defined.




Lemma createPayment_names_failures_witness :
  exists errors,
    createPayment (C := example_casters) 1000%Z
      {| body_userId := Some (JStr id0); body_amount := Some (JStr "abc");
         body_currency := Some (JStr "USD"); body_status := Some (JStr "refunded");
         body_createdAt := None |} alice_registered =
      ({| statusCode := 400; sent := SentError (ValidationError errors) |},
       generate alice_registered)
    /\ In ("amount", KCastError) errors
    /\ In ("status", KEnum) errors
    /\ ~ In ("currency", KRequired) errors.
Proof.
  destruct (@createPayment_names_failures example_casters 1000%Z
              {| body_userId := Some (JStr id0); body_amount := Some (JStr "abc");
                 body_currency := Some (JStr "USD"); body_status := Some (JStr "refunded");
                 body_createdAt := None |} alice_registered)
    as (errors & Hr & _ & _ & _ & Ha & _ & _ & Hc & _ & Hs & _ & _).
  - vm_compute. discriminate.
  - exists errors. split; [exact Hr |]. split; [| split].
    + apply Ha. exists (JStr "abc").
      split; [reflexivity | split; [discriminate | reflexivity]].
    + apply Hs. right. exists "refunded". split.
      * exists (JStr "refunded").
        split; [reflexivity | split; [discriminate | reflexivity]].
      * intros [H | [H | H]]; discriminate H.
    + intros H. apply Hc in H as [[H | H] | (j & [= <-] & _ & H)]; discriminate H.
Defined.

Lemma createPayment_not_idempotent_witness :
  exists p p',
    creates (C := example_casters) 1001%Z (paymentRequest id0 10 "USD")
      (insert_Payment p (generate alice_registered)) p'
      (insert_Payment p' (generate (insert_Payment p (generate alice_registered))))
    /\ payments (insert_Payment p' (generate (insert_Payment p (generate alice_registered))))
       = payments alice_registered ++ [p; p']
    /\ amount p' = amount p.
Proof.
  destruct (@createPayment_not_idempotent example_casters 1000%Z
              (paymentRequest id0 10 "USD") alice_registered _ _ 1001%Z eq_refl)
    as (p' & Hcr & Hpay & _ & Ha & _).
  eexists. exists p'. split; [exact Hcr | split; [exact Hpay | exact Ha]].
Defined.

Lemma payment_without_user_never_listed_witness :
  exists p,
    In p (payments (insert_Payment p (generate alice_registered)))
    /\ forall rs param l,
         fst (listPaymentsForUser (C := example_casters) param
                (run (C := example_casters) rs
                   (insert_Payment p (generate alice_registered)))) =
           {| statusCode := 200; sent := SentPayments l |} ->
         ~ In p l.
Proof.
  eexists.
  apply (@payment_without_user_never_listed example_casters 1000%Z
           (anonymous_request 10 "USD") alice_registered _ _ eq_refl).
  left. reflexivity.
Defined.

Lemma second_registration_iff_witness :
  statusCode (fst (register (C := example_casters) 1001%Z bob
                     (snd (register (C := example_casters) 1000%Z
                             (registration "alice" "alice@example.com" "hunter2")
                             initial)))) = 201.
Proof.
  apply (proj2 (@second_registration_iff example_casters 1000%Z
                  "alice" "alice@example.com" "hunter2" initial
                  1001%Z "bob" "bob@example.com" "hunter2"
                  eq_refl ltac:(discriminate) ltac:(discriminate) ltac:(discriminate)
                  eq_refl eq_refl)).
  split; discriminate.
Defined.
